(** * Smartsheet column lister

    A shallow embedding of [Smartsheet_Column_Numbers.py]: a straight-line
    script that builds a vendor client, asks it for one sheet and prints the
    sheet's name followed by one line per column.

    The script's two effects (one SDK call, a sequence of [print]s) are
    modelled in a small state-and-exception monad over an explicit [World];
    text is [string], identifiers are [Z]. *)

From Stdlib Require Import String Ascii List ZArith Lia Bool.
From Stdlib Require Import DecimalString DecimalZ.
Import ListNotations.

Open Scope list_scope.
Open Scope string_scope.

(* ================================================================= *)
(** ** Text helpers *)

(** The line terminator written by [print]. *)
Definition newline_char : ascii := Ascii.ascii_of_nat 10.
Definition newline : string := String newline_char EmptyString.

Fixpoint has_newline (s : string) : bool :=
  match s with
  | EmptyString => false
  | String c s' => if Ascii.eqb c newline_char then true else has_newline s'
  end.

Fixpoint count_newlines (s : string) : nat :=
  match s with
  | EmptyString => 0
  | String c s' =>
      (if Ascii.eqb c newline_char then 1 else 0) + count_newlines s'
  end.

(** Physical lines of a text, cut at every line terminator (Python's
    [str.splitlines] restricted to the terminator [print] uses). *)
Fixpoint splitlines (s : string) : list string :=
  match s with
  | EmptyString => []
  | String c s' =>
      if Ascii.eqb c newline_char then EmptyString :: splitlines s'
      else match splitlines s' with
           | [] => [String c EmptyString]
           | l :: ls => String c l :: ls
           end
  end.

(** The text obtained by writing each record followed by a terminator. *)
Fixpoint unlines (ls : list string) : string :=
  match ls with
  | [] => EmptyString
  | l :: ls' => l ++ newline ++ unlines ls'
  end.

(** The leading elements of a list that satisfy a test. *)
Fixpoint take_while {A : Type} (p : A -> bool) (xs : list A) : list A :=
  match xs with
  | [] => []
  | x :: xs' => if p x then x :: take_while p xs' else []
  end.

(** [contains needle s]: [needle] occurs somewhere inside [s]. *)
Definition contains (needle s : string) : Prop :=
  exists before after, s = before ++ needle ++ after.

(* ================================================================= *)
(** ** Data model *)

(** Modelled from the spec: the column identifier handed over by the vendor
    SDK, whose declaration is not part of this repository ("an identifier
    (integer or string, unique within the sheet)"). *)
Inductive ColumnId : Type :=
| IntId (n : Z)
| StrId (s : string).

(** Modelled from the spec: the SDK's enumerated column type tag ("an
    enumerated value such as TEXT_NUMBER, DATE, PICKLIST, etc., defined by
    the remote service's schema, not by this program").  A member is
    identified by its name. *)
Record ColumnType : Type := EnumMember { member_name : string }.

Definition TEXT_NUMBER : ColumnType := EnumMember "TEXT_NUMBER".
Definition DATE : ColumnType := EnumMember "DATE".
Definition PICKLIST : ColumnType := EnumMember "PICKLIST".

(** The attributes the script reads from a column: [col.title], [col.id],
    [col.type]. *)
Module Column.
Record t : Type := mk { title : string; id : ColumnId; type : ColumnType }.
End Column.

(** The sheet object handed back by the fetch.  The script reads
    [sheet.name] and [sheet.columns]; the sheet's own identifier is carried
    along and never read. *)
Module Sheet.
Record t : Type := mk { id : Z; name : string; columns : list Column.t }.
End Sheet.

(* ================================================================= *)
(** ** f-string interpolation *)

(** [{value}] inside an f-string renders the value through its [__format__]
    with an empty format specification, i.e. its [str]. *)
Class Format (A : Type) : Type := format : A -> string.

#[export] Instance Format_str : Format string := fun s => s.

(** [str] of a Python integer: decimal digits, a leading minus sign for
    negative numbers. *)
#[export] Instance Format_int : Format Z :=
  fun n => NilZero.string_of_int (Z.to_int n).

(** Reading a decimal numeral back (Python's [int(text)] on such text). *)
Definition parse_int (text : string) : option Z :=
  option_map Z.of_int (NilZero.int_of_string text).

#[export] Instance Format_ColumnId : Format ColumnId :=
  fun i => match i with
           | IntId n => format n
           | StrId s => format s
           end.

#[export] Instance Format_ColumnType : Format ColumnType :=
  fun t => member_name t.

(** An f-string is the concatenation of its literal and interpolated
    pieces, left to right. *)
Definition f_string (pieces : list string) : string :=
  fold_right append EmptyString pieces.

(* ================================================================= *)
(** ** The world the script runs in *)

(** The three ways the remote call can fail. *)
Inductive Failure : Type :=
| AuthorizationFailure
| NotFoundFailure
| TransportFailure.

Inductive Exception : Type :=
| ApiError (f : Failure)
| AttributeError (attribute : string)
| UnicodeEncodeError (text : string).

(** What the remote service answers to a credential and a sheet identifier. *)
Definition Service : Type := string -> Z -> Sheet.t + Failure.

(** An outbound request: the sheet-metadata fetch. *)
Inductive Request : Type :=
| FetchSheet (token : string) (sheet_id : Z).

Record World : Type := mkWorld {
  stdout : string;                    (* text written to standard output *)
  stderr : list Exception;            (* uncaught exceptions reported *)
  network : list Request;             (* outbound requests, oldest first *)
  remote : Service;                   (* state of the remote service *)
  files : list (string * string);     (* local files: path, content *)
  encodes : string -> bool            (* texts standard output can encode *)
}.

(** A freshly started process whose standard output encodes the texts
    accepted by [enc]. *)
Definition boot_on (enc : string -> bool) (svc : Service)
                   (fs : list (string * string)) : World :=
  {| stdout := EmptyString; stderr := []; network := [];
     remote := svc; files := fs; encodes := enc |}.

(** A freshly started process whose standard output encodes every text
    (a UTF-8 terminal or pipe). *)
Definition boot (svc : Service) (fs : list (string * string)) : World :=
  {| stdout := EmptyString; stderr := []; network := [];
     remote := svc; files := fs; encodes := fun _ => true |}.

(** An output encoding limited to 7-bit characters. *)
Fixpoint ascii_only (text : string) : bool :=
  match text with
  | EmptyString => true
  | String c text' => Nat.ltb (nat_of_ascii c) 128 && ascii_only text'
  end.

(* ================================================================= *)
(** ** Script monad: state plus exceptions *)

Inductive Result (A : Type) : Type :=
| Ok (a : A)
| Raised (e : Exception).
Arguments Ok {A} a.
Arguments Raised {A} e.

Definition Script (A : Type) : Type := World -> Result A * World.

Definition ret {A : Type} (a : A) : Script A := fun w => (Ok a, w).

Definition raise {A : Type} (e : Exception) : Script A :=
  fun w => (Raised e, w).

Definition bind {A B : Type} (m : Script A) (k : A -> Script B) : Script B :=
  fun w => match m w with
           | (Ok a, w') => k a w'
           | (Raised e, w') => (Raised e, w')
           end.

Declare Scope script_scope.
Delimit Scope script_scope with script.
Notation "x <- m ;; k" := (bind m (fun x => k))
  (at level 61, m at next level, right associativity) : script_scope.
Notation "m ;; k" := (bind m (fun _ => k))
  (at level 61, right associativity) : script_scope.
Open Scope script_scope.

(** [print(text)]: the text and a line terminator go to standard output.
    The stream encodes the text before it writes anything of it; a text it
    cannot encode raises and leaves the output as it was. *)
Definition print (text : string) : Script unit :=
  fun w =>
    if encodes w text then
      (Ok tt,
       {| stdout := stdout w ++ text ++ newline; stderr := stderr w;
          network := network w; remote := remote w; files := files w;
          encodes := encodes w |})
    else (Raised (UnicodeEncodeError text), w).

(** [for x in xs: body x]. *)
Fixpoint for_each {A : Type} (xs : list A) (body : A -> Script unit)
  : Script unit :=
  match xs with
  | [] => ret tt
  | x :: xs' => body x ;; for_each xs' body
  end.

(* ================================================================= *)
(** ** The vendor client *)

(** Modelled from the spec: the vendor client library, which is not part of
    this repository.  A client holds the credential and the switch set by
    [errors_as_exceptions]; [get_sheet] performs one network request and
    hands back the sheet, and on one of the three failures either raises
    (switch on: "surface all such failures as hard stops") or hands back an
    error object in place of the sheet (switch off). *)
Record Client : Type := mkClient {
  access_token : string;
  raise_exceptions : bool
}.

Inductive SdkObject : Type :=
| SheetObject (s : Sheet.t)
| ErrorObject (f : Failure).

Definition Smartsheet (token : string) : Client :=
  {| access_token := token; raise_exceptions := false |}.

Definition errors_as_exceptions (c : Client) (preference : bool) : Client :=
  {| access_token := access_token c; raise_exceptions := preference |}.

Definition send (r : Request) : Script unit :=
  fun w => (Ok tt,
            {| stdout := stdout w; stderr := stderr w;
               network := (network w ++ [r])%list; remote := remote w;
               files := files w; encodes := encodes w |}).

Definition answer (token : string) (sheet_id : Z)
  : Script (Sheet.t + Failure) :=
  fun w => (Ok (remote w token sheet_id), w).

(** Modelled from the spec: [Sheets.get_sheet] of the vendor client ("performs
    one network request to fetch full sheet metadata"). *)
Definition get_sheet (c : Client) (sheet_id : Z) : Script SdkObject :=
  send (FetchSheet (access_token c) sheet_id) ;;
  r <- answer (access_token c) sheet_id ;;
  match r with
  | inl s => ret (SheetObject s)
  | inr f => if raise_exceptions c then raise (ApiError f)
             else ret (ErrorObject f)
  end.

(** Attribute access [obj.name] and [obj.columns]. *)
Definition get_name (obj : SdkObject) : Script string :=
  match obj with
  | SheetObject s => ret (Sheet.name s)
  | ErrorObject _ => raise (AttributeError "name")
  end.

Definition get_columns (obj : SdkObject) : Script (list Column.t) :=
  match obj with
  | SheetObject s => ret (Sheet.columns s)
  | ErrorObject _ => raise (AttributeError "columns")
  end.

(* ================================================================= *)
(** ** The script *)

(** [f"Columns for sheet '{sheet.name}':"] *)
Definition header_line (sheet_name : string) : string :=
  f_string ["Columns for sheet '"; format sheet_name; "':"].

(** [f"- {col.title} (ID: {col.id}, Type: {col.type})"] *)
Definition column_line (col : Column.t) : string :=
  f_string ["- "; format (Column.title col);
            " (ID: "; format (Column.id col);
            ", Type: "; format (Column.type col); ")"].

(** The body of the script, with the two configuration constants as
    arguments. *)
Definition column_lister (ACCESS_TOKEN : string) (SHEET_ID : Z)
  : Script unit :=
  let smartsheet_client := Smartsheet ACCESS_TOKEN in
  let smartsheet_client := errors_as_exceptions smartsheet_client true in
  sheet <- get_sheet smartsheet_client SHEET_ID ;;
  sheet_name <- get_name sheet ;;
  print (header_line sheet_name) ;;
  columns <- get_columns sheet ;;
  for_each columns (fun col => print (column_line col)).

Definition ACCESS_TOKEN : string := "YOUR_ACCESS_TOKEN".
Definition SHEET_ID : Z := 1234567890123456.

Definition main : Script unit := column_lister ACCESS_TOKEN SHEET_ID.

(** Running a script as a process: falling off the end exits with status 0;
    an uncaught exception is reported on standard error and the exit status
    is 1. *)
Record Outcome : Type := mkOutcome { final : World; exit_status : Z }.

Definition run_process (script : Script unit) (w : World) : Outcome :=
  match script w with
  | (Ok _, w') => {| final := w'; exit_status := 0 |}
  | (Raised e, w') =>
      {| final := {| stdout := stdout w'; stderr := (stderr w' ++ [e])%list;
                     network := network w'; remote := remote w';
                     files := files w'; encodes := encodes w' |};
         exit_status := 1 |}
  end.

(** A run of the script with the given configuration against a service,
    on a standard output that encodes every text. *)
Definition run (token : string) (sheet_id : Z) (svc : Service)
                (fs : list (string * string)) : Outcome :=
  run_process (column_lister token sheet_id) (boot svc fs).

(** The same run on a standard output with the encoding [enc]. *)
Definition run_on (enc : string -> bool) (token : string) (sheet_id : Z)
                  (svc : Service) (fs : list (string * string)) : Outcome :=
  run_process (column_lister token sheet_id) (boot_on enc svc fs).

(* ================================================================= *)
(** ** Plain sheets *)

(** [has_char c s]: the character [c] occurs in [s]. *)
Fixpoint has_char (c : ascii) (s : string) : bool :=
  match s with
  | EmptyString => false
  | String x s' => Ascii.eqb x c || has_char c s'
  end.

(** The characters [str] of an integer is made of. *)
Definition decimal_char (c : ascii) : bool := has_char c "-0123456789".

Definition integer_id (i : ColumnId) : bool :=
  match i with
  | IntId _ => true
  | StrId _ => false
  end.

(** A column as the service usually hands it over: an integer identifier, a
    title on one line, a type name on one line and without a comma. *)
Definition plain_column (col : Column.t) : bool :=
  integer_id (Column.id col)
  && negb (has_newline (Column.title col))
  && negb (has_char "," (member_name (Column.type col)))
  && negb (has_newline (member_name (Column.type col))).

Definition plain_sheet (sheet : Sheet.t) : bool :=
  negb (has_newline (Sheet.name sheet))
  && forallb plain_column (Sheet.columns sheet).

(* ================================================================= *)
(** ** Sample sheets and services *)

(** The sheet of the worked example. *)
Definition project_plan : Sheet.t :=
  Sheet.mk 4001 "Project Plan"
    [Column.mk "Task Name" (IntId 111) TEXT_NUMBER;
     Column.mk "Due Date" (IntId 222) DATE].

(** A sheet without columns. *)
Definition blank_sheet : Sheet.t := Sheet.mk 4002 "Scratch" [].

(** A column whose title carries the text that separates title and
    identifier in a column record. *)
Definition awkward_column : Column.t :=
  Column.mk "Cost (ID: 7" (IntId 333) PICKLIST.

(** A sheet whose name spans two lines. *)
Definition awkward_sheet : Sheet.t :=
  Sheet.mk 4003 ("Plan" ++ newline ++ "v2") [awkward_column].


(** A sheet whose second column has an accented letter in its title. *)
Definition menu_sheet : Sheet.t :=
  Sheet.mk 4006 "Menu"
    [Column.mk "Dish" (IntId 1) TEXT_NUMBER;
     Column.mk ("Caf" ++ String (ascii_of_nat 233) EmptyString)
               (IntId 2) TEXT_NUMBER;
     Column.mk "Price" (IntId 3) TEXT_NUMBER].

(** A service that answers every request with the same sheet. *)
Definition single_sheet_service (sheet : Sheet.t) : Service :=
  fun _ _ => inl sheet.

(** A service that knows one credential and three sheets. *)
Definition sample_service : Service :=
  fun token sheet_id =>
    if String.eqb token "s3cret" then
      if Z.eqb sheet_id 4001 then inl project_plan
      else if Z.eqb sheet_id 4002 then inl blank_sheet
      else if Z.eqb sheet_id 4003 then inl awkward_sheet
      else inr NotFoundFailure
    else inr AuthorizationFailure.

(** Another deployment: a different credential and numbering, and a sheet
    with the same name and columns as [project_plan]. *)
Definition mirror_service : Service :=
  fun token sheet_id =>
    if String.eqb token "0ther" then
      if Z.eqb sheet_id 9 then
        inl (Sheet.mk 9 (Sheet.name project_plan)
                        (Sheet.columns project_plan))
      else inr NotFoundFailure
    else inr AuthorizationFailure.

(* ================================================================= *)
(** ** Facts about text *)

Module Text.

Lemma app_nil_r (s : string) : s ++ EmptyString = s.
Proof. induction s as [|c s IH]; simpl; [reflexivity | now rewrite IH]. Qed.

Lemma app_assoc (a b c : string) : (a ++ b) ++ c = a ++ b ++ c.
Proof. induction a as [|x a IH]; simpl; [reflexivity | now rewrite IH]. Qed.

Lemma length_app (a b : string) :
  String.length (a ++ b) = String.length a + String.length b.
Proof. induction a as [|x a IH]; simpl; [reflexivity | now rewrite IH]. Qed.

Lemma substring_all (a b : string) :
  substring 0 (String.length a) (a ++ b) = a.
Proof. induction a as [|x a IH]; simpl; [now destruct b | now rewrite IH]. Qed.

Lemma substring_skip (a b : string) (n : nat) :
  substring (String.length a) n (a ++ b) = substring 0 n b.
Proof. induction a as [|x a IH]; simpl; [reflexivity | exact IH]. Qed.

(** The piece in the middle of a concatenation is found at the offset
    given by what precedes it. *)
Lemma substring_middle (a b c : string) :
  substring (String.length a) (String.length b) (a ++ b ++ c) = b.
Proof. rewrite substring_skip. apply substring_all. Qed.

Lemma app_inv_head (a b c : string) : a ++ b = a ++ c -> b = c.
Proof.
  induction a as [|x a IH]; simpl; intros H; [exact H|].
  injection H as H. now apply IH.
Qed.

Lemma count_newlines_app (a b : string) :
  count_newlines (a ++ b) = count_newlines a + count_newlines b.
Proof.
  induction a as [|x a IH]; simpl; [reflexivity|].
  rewrite IH. lia.
Qed.

Lemma has_newline_count (s : string) :
  has_newline s = true <-> 0 < count_newlines s.
Proof.
  induction s as [|x s IH]; simpl.
  - split; [discriminate | lia].
  - destruct (Ascii.eqb x newline_char); simpl.
    + split; [lia | reflexivity].
    + exact IH.
Qed.

Lemma has_newline_app (a b : string) :
  has_newline (a ++ b) = has_newline a || has_newline b.
Proof.
  induction a as [|x a IH]; simpl; [reflexivity|].
  destruct (Ascii.eqb x newline_char); [reflexivity | exact IH].
Qed.

(** A record without a terminator inside it is one physical line. *)
Lemma splitlines_record (l rest : string) :
  has_newline l = false ->
  splitlines (l ++ newline ++ rest) = l :: splitlines rest.
Proof.
  induction l as [|x l IH]; intros H; [reflexivity|].
  change (String x l ++ newline ++ rest)
    with (String x (l ++ newline ++ rest)).
  cbn [splitlines has_newline] in *.
  destruct (Ascii.eqb x newline_char); [discriminate|].
  now rewrite (IH H).
Qed.

Lemma splitlines_unlines (ls : list string) :
  forallb (fun l => negb (has_newline l)) ls = true ->
  splitlines (unlines ls) = ls.
Proof.
  induction ls as [|l ls IH]; intros H; [reflexivity|].
  cbn [forallb unlines] in *.
  apply andb_true_iff in H. destruct H as [Hl Hls].
  apply negb_true_iff in Hl.
  rewrite splitlines_record by exact Hl.
  now rewrite (IH Hls).
Qed.

(** Every terminator inside a record opens one more physical line. *)
Lemma length_splitlines_record (l rest : string) :
  List.length (splitlines (l ++ newline ++ rest)) =
  count_newlines l + 1 + List.length (splitlines rest).
Proof.
  induction l as [|x l IH]; [reflexivity|].
  change (String x l ++ newline ++ rest)
    with (String x (l ++ newline ++ rest)).
  cbn [splitlines count_newlines].
  destruct (Ascii.eqb x newline_char).
  - cbn [List.length]. rewrite IH. lia.
  - destruct (splitlines (l ++ newline ++ rest)) as [|l0 ls] eqn:E;
      cbn [List.length] in *; lia.
Qed.

Lemma length_splitlines_unlines (ls : list string) :
  List.length (splitlines (unlines ls)) =
  List.length ls + list_sum (map count_newlines ls).
Proof.
  induction ls as [|l ls IH]; [reflexivity|].
  cbn [unlines map List.length].
  change (list_sum (count_newlines l :: map count_newlines ls))
    with (count_newlines l + list_sum (map count_newlines ls)).
  rewrite length_splitlines_record, IH. lia.
Qed.

Lemma unlines_app (xs ys : list string) :
  unlines (xs ++ ys)%list = unlines xs ++ unlines ys.
Proof.
  induction xs as [|x xs IH]; simpl; [reflexivity|].
  now rewrite IH, !app_assoc.
Qed.

End Text.

(* ================================================================= *)
(** ** Leading elements *)

Lemma forallb_const_true {A : Type} (xs : list A) :
  forallb (fun _ => true) xs = true.
Proof. induction xs as [|x xs IH]; [reflexivity | exact IH]. Qed.

Lemma take_while_all {A : Type} (p : A -> bool) (xs : list A) :
  forallb p xs = true -> take_while p xs = xs.
Proof.
  induction xs as [|x xs IH]; cbn [forallb take_while]; [reflexivity|].
  intros H. apply andb_true_iff in H. destruct H as [Hx Hxs].
  now rewrite Hx, (IH Hxs).
Qed.

Lemma find_rejected_none {A : Type} (p : A -> bool) (xs : list A) :
  forallb p xs = true -> find (fun x => negb (p x)) xs = None.
Proof.
  induction xs as [|x xs IH]; cbn [forallb find]; [reflexivity|].
  intros H. apply andb_true_iff in H. destruct H as [Hx Hxs].
  now rewrite Hx, (IH Hxs).
Qed.

(** When some element fails the test, the first such element is found, and
    the list is its leading accepted elements followed by it and more. *)
Lemma find_rejected_some {A : Type} (p : A -> bool) (xs : list A) :
  forallb p xs = false ->
  exists x rest,
    find (fun x => negb (p x)) xs = Some x /\ p x = false /\
    xs = (take_while p xs ++ x :: rest)%list.
Proof.
  induction xs as [|y xs IH]; cbn [forallb find take_while];
    [discriminate|].
  destruct (p y) eqn:Hy; cbn [negb andb].
  - intros H. destruct (IH H) as [x [rest [Hfind [Hx Hsplit]]]].
    exists x, rest. split; [exact Hfind|]. split; [exact Hx|].
    cbn [app]. now rewrite <- Hsplit.
  - intros _. exists y, xs. now repeat split.
Qed.

(* ================================================================= *)
(** ** Running the script *)

Section Runs.

Variables (token : string) (sheet_id : Z).
Variables (svc : Service) (fs : list (string * string)).

(** The loop appends one record per column, in list order, up to the first
    record the stream cannot encode, and touches nothing else. *)
Lemma for_each_print (cols : list Column.t) (w : World) :
  for_each cols (fun col => print (column_line col)) w =
  (match find (fun l => negb (encodes w l)) (map column_line cols) with
   | None => Ok tt
   | Some l => Raised (UnicodeEncodeError l)
   end,
   {| stdout := stdout w
                ++ unlines (take_while (encodes w) (map column_line cols));
      stderr := stderr w; network := network w;
      remote := remote w; files := files w; encodes := encodes w |}).
Proof.
  revert w. induction cols as [|col cols IH]; intros w.
  - destruct w; cbn. now rewrite Text.app_nil_r.
  - cbn [for_each map find take_while]. unfold bind at 1. unfold print at 1.
    destruct (encodes w (column_line col)) eqn:Henc; cbn [negb].
    + rewrite IH. cbn [stdout stderr network remote files encodes unlines].
      now rewrite !Text.app_assoc.
    + destruct w; cbn. now rewrite Text.app_nil_r.
Qed.

(** A run, on any output encoding, in which the service hands back a
    sheet. *)
Lemma run_on_fetched (enc : string -> bool) (sheet : Sheet.t) :
  svc token sheet_id = inl sheet ->
  let records := header_line (Sheet.name sheet)
                 :: map column_line (Sheet.columns sheet) in
  run_on enc token sheet_id svc fs =
  {| final :=
       {| stdout := unlines (take_while enc records);
          stderr := match find (fun l => negb (enc l)) records with
                    | None => []
                    | Some l => [UnicodeEncodeError l]
                    end;
          network := [FetchSheet token sheet_id];
          remote := svc; files := fs; encodes := enc |};
     exit_status := match find (fun l => negb (enc l)) records with
                    | None => 0
                    | Some _ => 1
                    end |}.
Proof.
  intros Hsvc records. subst records.
  unfold run_on, run_process, column_lister, get_sheet, bind, send, answer,
    boot_on, Smartsheet, errors_as_exceptions.
  cbn [remote access_token raise_exceptions stdout stderr network files
       encodes].
  rewrite Hsvc.
  cbn [ret get_name get_columns]. unfold print at 1.
  cbn [stdout stderr network remote files encodes find take_while].
  destruct (enc (header_line (Sheet.name sheet))) eqn:Hheader; cbn [negb].
  - rewrite for_each_print.
    cbn [stdout stderr network remote files encodes app unlines append].
    rewrite Text.app_assoc.
    destruct (find (fun l => negb (enc l))
                   (map column_line (Sheet.columns sheet))); reflexivity.
  - reflexivity.
Qed.

(** A run, on any output encoding, in which the fetch fails. *)
Lemma run_on_failed (enc : string -> bool) (f : Failure) :
  svc token sheet_id = inr f ->
  run_on enc token sheet_id svc fs =
  {| final :=
       {| stdout := EmptyString; stderr := [ApiError f];
          network := [FetchSheet token sheet_id];
          remote := svc; files := fs; encodes := enc |};
     exit_status := 1 |}.
Proof.
  intros Hsvc.
  unfold run_on, run_process, column_lister, get_sheet, bind, send, answer,
    boot_on, Smartsheet, errors_as_exceptions.
  cbn [remote access_token raise_exceptions stdout stderr network files
       encodes].
  rewrite Hsvc. reflexivity.
Qed.

(** A run in which the service hands back a sheet. *)
Lemma run_fetched (sheet : Sheet.t) :
  svc token sheet_id = inl sheet ->
  run token sheet_id svc fs =
  {| final :=
       {| stdout := unlines (header_line (Sheet.name sheet)
                             :: map column_line (Sheet.columns sheet));
          stderr := []; network := [FetchSheet token sheet_id];
          remote := svc; files := fs; encodes := fun _ => true |};
     exit_status := 0 |}.
Proof.
  intros Hsvc.
  change (run token sheet_id svc fs)
    with (run_on (fun _ => true) token sheet_id svc fs).
  rewrite (run_on_fetched (fun _ => true) sheet Hsvc).
  rewrite take_while_all, find_rejected_none;
    [reflexivity | apply forallb_const_true | apply forallb_const_true].
Qed.

(** A run in which the fetch fails. *)
Lemma run_failed (f : Failure) :
  svc token sheet_id = inr f ->
  run token sheet_id svc fs =
  {| final :=
       {| stdout := EmptyString; stderr := [ApiError f];
          network := [FetchSheet token sheet_id];
          remote := svc; files := fs; encodes := fun _ => true |};
     exit_status := 1 |}.
Proof.
  intros Hsvc.
  change (run token sheet_id svc fs)
    with (run_on (fun _ => true) token sheet_id svc fs).
  exact (run_on_failed (fun _ => true) f Hsvc).
Qed.

End Runs.

(* ================================================================= *)
(** ** The shape of the emitted records *)

Lemma header_line_eq (sheet_name : string) :
  header_line sheet_name = "Columns for sheet '" ++ sheet_name ++ "':".
Proof.
  unfold header_line, f_string, format, Format_str.
  cbn [fold_right]. now rewrite Text.app_nil_r.
Qed.

Lemma column_line_eq (col : Column.t) :
  column_line col =
  "- " ++ Column.title col ++ " (ID: " ++ format (Column.id col)
       ++ ", Type: " ++ member_name (Column.type col) ++ ")".
Proof.
  unfold column_line, f_string.
  change (format (Column.title col)) with (Column.title col).
  change (format (Column.type col)) with (member_name (Column.type col)).
  cbn [fold_right]. now rewrite Text.app_nil_r.
Qed.

Lemma substring_at (a b c : string) (n : nat) :
  n = String.length a ->
  substring n (String.length b) (a ++ b ++ c) = b.
Proof. intros ->. apply Text.substring_middle. Qed.

(** The decimal text of an integer reads back as that integer. *)
Lemma parse_int_format (n : Z) : parse_int (format n) = Some n.
Proof.
  unfold parse_int, format, Format_int.
  rewrite NilZero.isi.
  - cbn [option_map]. now rewrite DecimalZ.of_to.
  - destruct n; cbn; try discriminate.
    intros [= H]. now apply (DecimalPos.Unsigned.to_uint_nonnil p).
  - destruct n; cbn; try discriminate.
    intros [= H]. now apply (DecimalPos.Unsigned.to_uint_nonnil p).
Qed.

Lemma nth_error_column_lines (cols : list Column.t) (i : nat) :
  nth_error (map column_line cols) i =
  option_map column_line (nth_error cols i).
Proof. apply nth_error_map. Qed.

Lemma count_newlines_header (sheet_name : string) :
  count_newlines (header_line sheet_name) = count_newlines sheet_name.
Proof.
  rewrite header_line_eq, !Text.count_newlines_app. cbn. lia.
Qed.

Lemma count_newlines_column_title (col : Column.t) :
  count_newlines (Column.title col) <= count_newlines (column_line col).
Proof.
  rewrite column_line_eq, !Text.count_newlines_app. lia.
Qed.

Lemma list_sum_member {A : Type} (f : A -> nat) (x : A) (xs : list A) :
  In x xs -> f x <= list_sum (map f xs).
Proof.
  induction xs as [|y xs IH]; intros Hin; [contradiction|].
  change (list_sum (map f (y :: xs)))
    with (f y + list_sum (map f xs)).
  destruct Hin as [->|Hin]; [lia|].
  specialize (IH Hin). lia.
Qed.

(** Moving the tail of a title that contains [ (ID: ] into the identifier
    leaves the record unchanged. *)
Lemma column_line_shift (before after : string) (i : ColumnId)
                        (t : ColumnType) :
  column_line (Column.mk before (StrId (after ++ " (ID: " ++ format i)) t) =
  column_line (Column.mk (before ++ " (ID: " ++ after) i t).
Proof.
  rewrite !column_line_eq. cbn [Column.title Column.id Column.type].
  change (format (StrId (after ++ " (ID: " ++ format i)))
    with (after ++ " (ID: " ++ format i).
  now rewrite !Text.app_assoc.
Qed.

Lemma app_longer (a b : string) : b <> EmptyString -> a <> a ++ b.
Proof.
  intros Hb Heq. apply Hb.
  apply (Text.app_inv_head a). now rewrite Text.app_nil_r.
Qed.

(* ================================================================= *)
(** ** Claims *)


(** C2: when the fetch fails, with whichever of the three failures, nothing
    is printed on standard output, the error is the only thing reported and
    the exit status is 1.  When the fetch succeeds the records are printed
    one at a time: the output is the header and the column records up to the
    first record that standard output cannot encode; it is the header with
    the full column list, with exit status 0, when every record can be
    encoded, and otherwise the error of the failing [print] is reported and
    the exit status is 1. *)
Theorem C2_output_is_nothing_or_leading_records
    (enc : string -> bool) (token : string) (sheet_id : Z) (svc : Service)
    (fs : list (string * string)) :
  let outcome := run_on enc token sheet_id svc fs in
  match svc token sheet_id with
  | inr failure =>
      stdout (final outcome) = EmptyString /\
      stderr (final outcome) = [ApiError failure] /\
      exit_status outcome = 1%Z
  | inl sheet =>
      let records := header_line (Sheet.name sheet)
                     :: map column_line (Sheet.columns sheet) in
      stdout (final outcome) = unlines (take_while enc records) /\
      (forallb enc records = true ->
       stdout (final outcome) = unlines records /\
       stderr (final outcome) = [] /\
       exit_status outcome = 0%Z) /\
      (forallb enc records = false ->
       exists record,
         In record records /\ enc record = false /\
         stderr (final outcome) = [UnicodeEncodeError record] /\
         exit_status outcome = 1%Z)
  end.
Proof.
  intros outcome. subst outcome.
  destruct (svc token sheet_id) as [sheet|failure] eqn:Hsvc.
  - intros records.
    rewrite (run_on_fetched token sheet_id svc fs enc sheet Hsvc).
    fold records. cbn [final stdout stderr exit_status].
    split; [reflexivity|]. split.
    + intros Hall.
      now rewrite (take_while_all enc records Hall),
                  (find_rejected_none enc records Hall).
    + intros Hsome.
      destruct (find_rejected_some enc records Hsome)
        as [record [rest [Hfind [Hrej Hsplit]]]].
      exists record. rewrite Hfind. split; [|now repeat split].
      rewrite Hsplit. apply in_or_app. right. now left.
  - now rewrite (run_on_failed token sheet_id svc fs enc failure Hsvc).
Qed.

(** A run that prints neither everything nor nothing: the sheet is fetched,
    the header and the first of three column records are written, and the
    second record cannot be encoded for a 7-bit standard output. *)
Lemma C2_partial_listing :
  single_sheet_service menu_sheet "s3cret" 4006%Z = inl menu_sheet /\
  stdout (final (run_on ascii_only "s3cret" 4006%Z
                   (single_sheet_service menu_sheet) [])) =
    unlines ["Columns for sheet 'Menu':";
             "- Dish (ID: 1, Type: TEXT_NUMBER)"] /\
  exit_status (run_on ascii_only "s3cret" 4006%Z
                 (single_sheet_service menu_sheet) []) = 1%Z /\
  ~ (stdout (final (run_on ascii_only "s3cret" 4006%Z
                      (single_sheet_service menu_sheet) [])) =
       unlines (header_line (Sheet.name menu_sheet)
                :: map column_line (Sheet.columns menu_sheet)) \/
     stdout (final (run_on ascii_only "s3cret" 4006%Z
                      (single_sheet_service menu_sheet) [])) =
       EmptyString).
Proof.
  split; [reflexivity|]. split; [vm_compute; reflexivity|].
  split; [vm_compute; reflexivity|].
  intros [H|H]; vm_compute in H; discriminate.
Qed.

(** C3: on a successful run the output is the header record, which is
    [Columns for sheet '] followed by the sheet's name, unchanged and in
    full, followed by [':], and then one record per column of the form
    [- <title> (ID: <id>, Type: <type>)]. *)
Theorem C3_fixed_output_format
    (token : string) (sheet_id : Z) (svc : Service)
    (fs : list (string * string)) (sheet : Sheet.t) :
  svc token sheet_id = inl sheet ->
  let name := Sheet.name sheet in
  let header := "Columns for sheet '" ++ name ++ "':" in
  let line := fun col =>
    "- " ++ Column.title col ++ " (ID: " ++ format (Column.id col)
         ++ ", Type: " ++ member_name (Column.type col) ++ ")" in
  stdout (final (run token sheet_id svc fs)) =
    unlines (header :: map line (Sheet.columns sheet)) /\
  substring 19 (String.length name) header = name /\
  String.length header = 19 + String.length name + 2.
Proof.
  intros Hsvc name header line.
  rewrite (run_fetched token sheet_id svc fs sheet Hsvc).
  cbn [final stdout]. split; [|split].
  - rewrite header_line_eq. fold name header.
    rewrite (map_ext column_line line); [reflexivity|].
    intros col. apply column_line_eq.
  - subst header. now apply substring_at.
  - subst header. rewrite !Text.length_app. cbn [String.length]. lia.
Qed.


Lemma C3_witness :
  sample_service "s3cret" 4001%Z = inl project_plan /\
  stdout (final (run "s3cret" 4001%Z sample_service [])) =
    unlines ["Columns for sheet 'Project Plan':";
             "- Task Name (ID: 111, Type: TEXT_NUMBER)";
             "- Due Date (ID: 222, Type: DATE)"] /\
  substring 19 12 "Columns for sheet 'Project Plan':" = "Project Plan".
Proof.
  split; [reflexivity|].
  pose proof (C3_fixed_output_format
                "s3cret" 4001%Z sample_service [] project_plan eq_refl)
    as [Hout [Hname _]].
  split; [exact Hout | exact Hname].
Defined.

(** C4: the record emitted for a column carries the column's title at
    offset 2, the text of its identifier after [ (ID: ] and the name of its
    type after [, Type: ], each character for character and in full; a
    string identifier is its own text, and the text of an integer
    identifier is the decimal numeral that reads back as that integer. *)
Theorem C4_column_values_reproduced
    (token : string) (sheet_id : Z) (svc : Service)
    (fs : list (string * string)) (sheet : Sheet.t)
    (i : nat) (col : Column.t) :
  svc token sheet_id = inl sheet ->
  nth_error (Sheet.columns sheet) i = Some col ->
  let records := header_line (Sheet.name sheet)
                 :: map column_line (Sheet.columns sheet) in
  let line := column_line col in
  let title := Column.title col in
  let id_text := format (Column.id col) in
  let type_name := member_name (Column.type col) in
  let id_at := 2 + String.length title + 6 in
  let type_at := id_at + String.length id_text + 8 in
  stdout (final (run token sheet_id svc fs)) = unlines records /\
  nth_error records (S i) = Some line /\
  substring 2 (String.length title) line = title /\
  substring id_at (String.length id_text) line = id_text /\
  substring type_at (String.length type_name) line = type_name /\
  String.length line = type_at + String.length type_name + 1 /\
  match Column.id col with
  | IntId n => parse_int id_text = Some n
  | StrId s => id_text = s
  end.
Proof.
  intros Hsvc Hcol records line title id_text type_name id_at type_at.
  rewrite (run_fetched token sheet_id svc fs sheet Hsvc).
  cbn [final stdout]. split; [reflexivity|]. split.
  { subst records. cbn [nth_error].
    rewrite nth_error_column_lines, Hcol. reflexivity. }
  assert (Hline : line = "- " ++ title ++ " (ID: " ++ id_text
                              ++ ", Type: " ++ type_name ++ ")")
    by apply column_line_eq.
  rewrite Hline. split; [|split; [|split; [|split]]].
  - now apply substring_at.
  - replace ("- " ++ title ++ " (ID: " ++ id_text
                  ++ ", Type: " ++ type_name ++ ")")
      with (("- " ++ title ++ " (ID: ") ++ id_text
                  ++ ", Type: " ++ type_name ++ ")")
      by now rewrite !Text.app_assoc.
    apply substring_at. subst id_at.
    rewrite !Text.length_app. cbn [String.length]. lia.
  - replace ("- " ++ title ++ " (ID: " ++ id_text
                  ++ ", Type: " ++ type_name ++ ")")
      with (("- " ++ title ++ " (ID: " ++ id_text ++ ", Type: ")
                  ++ type_name ++ ")")
      by now rewrite !Text.app_assoc.
    apply substring_at. subst type_at id_at.
    rewrite !Text.length_app. cbn [String.length]. lia.
  - subst type_at id_at.
    rewrite !Text.length_app. cbn [String.length]. lia.
  - subst id_text. destruct (Column.id col) as [n|s].
    + apply parse_int_format.
    + reflexivity.
Qed.

Lemma C4_witness :
  sample_service "s3cret" 4001%Z = inl project_plan /\
  nth_error (Sheet.columns project_plan) 1 =
    Some (Column.mk "Due Date" (IntId 222) DATE) /\
  substring 2 8 "- Due Date (ID: 222, Type: DATE)" = "Due Date" /\
  substring 16 3 "- Due Date (ID: 222, Type: DATE)" = "222" /\
  substring 27 4 "- Due Date (ID: 222, Type: DATE)" = "DATE" /\
  parse_int "222" = Some 222%Z.
Proof.
  split; [reflexivity|]. split; [reflexivity|].
  pose proof (C4_column_values_reproduced
                "s3cret" 4001%Z sample_service [] project_plan 1
                (Column.mk "Due Date" (IntId 222) DATE) eq_refl eq_refl)
    as [_ [_ [Htitle [Hid [Htype [_ Hparse]]]]]].
  exact (conj Htitle (conj Hid (conj Htype Hparse))).
Defined.

(** C5: a sheet named [Project Plan] with the columns (Task Name, 111,
    TEXT_NUMBER) and (Due Date, 222, DATE) produces exactly the three lines
    of the worked example. *)
Theorem C5_project_plan_example
    (token : string) (sheet_id : Z) (svc : Service)
    (fs : list (string * string)) (sheet : Sheet.t) :
  svc token sheet_id = inl sheet ->
  Sheet.name sheet = "Project Plan" ->
  Sheet.columns sheet =
    [Column.mk "Task Name" (IntId 111) TEXT_NUMBER;
     Column.mk "Due Date" (IntId 222) DATE] ->
  let out := stdout (final (run token sheet_id svc fs)) in
  out = "Columns for sheet 'Project Plan':" ++ newline
        ++ "- Task Name (ID: 111, Type: TEXT_NUMBER)" ++ newline
        ++ "- Due Date (ID: 222, Type: DATE)" ++ newline /\
  splitlines out =
    ["Columns for sheet 'Project Plan':";
     "- Task Name (ID: 111, Type: TEXT_NUMBER)";
     "- Due Date (ID: 222, Type: DATE)"].
Proof.
  intros Hsvc Hname Hcols out. subst out.
  rewrite (run_fetched token sheet_id svc fs sheet Hsvc).
  cbn [final stdout]. rewrite Hname, Hcols.
  split; vm_compute; reflexivity.
Qed.

Lemma C5_witness :
  single_sheet_service project_plan ACCESS_TOKEN SHEET_ID
    = inl project_plan /\
  Sheet.name project_plan = "Project Plan" /\
  Sheet.columns project_plan =
    [Column.mk "Task Name" (IntId 111) TEXT_NUMBER;
     Column.mk "Due Date" (IntId 222) DATE] /\
  splitlines
    (stdout (final (run_process main
                      (boot (single_sheet_service project_plan) [])))) =
    ["Columns for sheet 'Project Plan':";
     "- Task Name (ID: 111, Type: TEXT_NUMBER)";
     "- Due Date (ID: 222, Type: DATE)"].
Proof.
  split; [reflexivity|]. split; [reflexivity|]. split; [reflexivity|].
  exact (proj2 (C5_project_plan_example
                  ACCESS_TOKEN SHEET_ID (single_sheet_service project_plan)
                  [] project_plan eq_refl eq_refl eq_refl)).
Defined.



(** C7: every run, successful or not, sends exactly one request, the fetch
    of the configured sheet with the configured credential; it leaves the
    remote service's state and the local files as they were.  Everything
    else it does is written to the console. *)
Theorem C7_one_request_no_other_effects
    (token : string) (sheet_id : Z) (svc : Service)
    (fs : list (string * string)) :
  let after := final (run token sheet_id svc fs) in
  network after = [FetchSheet token sheet_id] /\
  List.length (network after) = 1 /\
  remote after = svc /\
  files after = fs.
Proof.
  intros after. subst after.
  destruct (svc token sheet_id) as [sheet|failure] eqn:Hsvc.
  - rewrite (run_fetched token sheet_id svc fs sheet Hsvc).
    cbn. repeat split.
  - rewrite (run_failed token sheet_id svc fs failure Hsvc).
    cbn. repeat split.
Qed.

(** C8: when the fetch hands back a sheet, the script runs to its end: the
    exit status is zero and no exception is reported. *)
Theorem C8_success_exits_zero
    (token : string) (sheet_id : Z) (svc : Service)
    (fs : list (string * string)) (sheet : Sheet.t) :
  svc token sheet_id = inl sheet ->
  exit_status (run token sheet_id svc fs) = 0%Z /\
  stderr (final (run token sheet_id svc fs)) = [].
Proof.
  intros Hsvc.
  now rewrite (run_fetched token sheet_id svc fs sheet Hsvc).
Qed.

Lemma C8_witness :
  sample_service "s3cret" 4001%Z = inl project_plan /\
  exit_status (run "s3cret" 4001%Z sample_service []) = 0%Z.
Proof.
  split; [reflexivity|].
  exact (proj1 (C8_success_exits_zero
                  "s3cret" 4001%Z sample_service [] project_plan eq_refl)).
Defined.



(** C10: the name and the titles go into the output as they are.  On a
    successful run, a line terminator inside the sheet's name or inside some
    column's title makes the output have more physical lines than one header
    plus one per column; and the record of a column whose title contains
    [ (ID: ] is also the record of a column with another title and another
    identifier, so the record does not determine the (title, id, type) it
    was made from. *)
Theorem C10_values_interpolated_unescaped
    (token : string) (sheet_id : Z) (svc : Service)
    (fs : list (string * string)) (sheet : Sheet.t) :
  svc token sheet_id = inl sheet ->
  let out := stdout (final (run token sheet_id svc fs)) in
  (has_newline (Sheet.name sheet) = true \/
   (exists col, In col (Sheet.columns sheet) /\
                has_newline (Column.title col) = true) ->
   1 + List.length (Sheet.columns sheet) < List.length (splitlines out)) /\
  (forall col, In col (Sheet.columns sheet) ->
               contains " (ID: " (Column.title col) ->
   exists other,
     Column.title other <> Column.title col /\
     Column.id other <> Column.id col /\
     column_line other = column_line col).
Proof.
  intros Hsvc out. subst out.
  rewrite (run_fetched token sheet_id svc fs sheet Hsvc).
  cbn [final stdout]. split.
  - intros Hnl. rewrite Text.length_splitlines_unlines.
    cbn [List.length map].
    change (list_sum (?x :: ?xs)) with (x + list_sum xs).
    rewrite length_map, count_newlines_header.
    destruct Hnl as [Hname | [col [Hin Htitle]]].
    + apply Text.has_newline_count in Hname. lia.
    + apply Text.has_newline_count in Htitle.
      pose proof (count_newlines_column_title col) as Hle.
      pose proof (list_sum_member count_newlines (column_line col)
                    (map column_line (Sheet.columns sheet))
                    (in_map column_line _ _ Hin)) as Hsum.
      lia.
  - intros [title i t] _ [before [after Htitle]].
    cbn [Column.title] in Htitle. subst title.
    exists (Column.mk before (StrId (after ++ " (ID: " ++ format i)) t).
    cbn [Column.title Column.id]. split; [|split].
    + apply app_longer. discriminate.
    + destruct i as [n|s]; [discriminate|].
      change (format (StrId s)) with s. intros [= Heq].
      apply (f_equal String.length) in Heq.
      rewrite !Text.length_app in Heq. cbn [String.length] in Heq. lia.
    + apply column_line_shift.
Qed.

Lemma C10_witness :
  sample_service "s3cret" 4003%Z = inl awkward_sheet /\
  has_newline (Sheet.name awkward_sheet) = true /\
  In awkward_column (Sheet.columns awkward_sheet) /\
  contains " (ID: " (Column.title awkward_column) /\
  1 + List.length (Sheet.columns awkward_sheet)
    < List.length
        (splitlines
           (stdout (final (run "s3cret" 4003%Z sample_service [])))) /\
  exists other,
    Column.title other <> Column.title awkward_column /\
    Column.id other <> Column.id awkward_column /\
    column_line other = column_line awkward_column.
Proof.
  assert (Hin : In awkward_column (Sheet.columns awkward_sheet))
    by (left; reflexivity).
  assert (Hsep : contains " (ID: " (Column.title awkward_column))
    by (exists "Cost", "7"; reflexivity).
  split; [reflexivity|]. split; [reflexivity|].
  split; [exact Hin|]. split; [exact Hsep|].
  pose proof (C10_values_interpolated_unescaped
                "s3cret" 4003%Z sample_service [] awkward_sheet eq_refl)
    as [Hlines Hrecord].
  split.
  - apply Hlines. left. reflexivity.
  - exact (Hrecord awkward_column Hin Hsep).
Defined.

(* ================================================================= *)
(** ** Further facts about text *)

Lemma has_char_app (c : ascii) (a b : string) :
  has_char c (a ++ b) = has_char c a || has_char c b.
Proof.
  induction a as [|x a IH]; cbn [append has_char]; [reflexivity|].
  now rewrite IH, orb_assoc.
Qed.

Lemma has_newline_has_char (s : string) :
  has_newline s = has_char newline_char s.
Proof.
  induction s as [|x s IH]; cbn [has_newline has_char]; [reflexivity|].
  rewrite IH. now destruct (Ascii.eqb x newline_char).
Qed.

Lemma app_inv_tail (a b c : string) : a ++ c = b ++ c -> a = b.
Proof.
  revert b. induction a as [|x a IH]; intros [|y b] H.
  - reflexivity.
  - apply (f_equal String.length) in H.
    cbn [append String.length] in H. rewrite Text.length_app in H. lia.
  - apply (f_equal String.length) in H.
    cbn [append String.length] in H. rewrite Text.length_app in H. lia.
  - cbn [append] in H. injection H as Hxy H. subst y.
    now rewrite (IH b H).
Qed.

(** A text is cut at the last occurrence of a character in one way only. *)
Lemma cut_at_last_unique (c : ascii) (a b x y : string) :
  has_char c x = false -> has_char c y = false ->
  a ++ String c x = b ++ String c y -> a = b /\ x = y.
Proof.
  intros Hx Hy. revert b.
  induction a as [|h a IH]; intros [|k b] H; cbn [append] in H.
  - injection H as H. now split.
  - injection H as Hc H. subst x.
    rewrite has_char_app in Hx. cbn [has_char] in Hx.
    rewrite Ascii.eqb_refl in Hx. cbn in Hx.
    now rewrite orb_true_r in Hx.
  - injection H as Hc H. subst y.
    rewrite has_char_app in Hy. cbn [has_char] in Hy.
    rewrite Ascii.eqb_refl in Hy. cbn in Hy.
    now rewrite orb_true_r in Hy.
  - injection H as Hhk H. subst k.
    destruct (IH b H) as [-> ->]. now split.
Qed.

(** The text of an integer consists of digits and at most a minus sign. *)
Lemma uint_text_chars (c : ascii) (d : Decimal.uint) :
  decimal_char c = false ->
  has_char c (NilEmpty.string_of_uint d) = false.
Proof.
  unfold decimal_char. cbn [has_char]. intros Hc.
  repeat (apply orb_false_iff in Hc; destruct Hc as [? Hc]).
  induction d as [|d IH|d IH|d IH|d IH|d IH|d IH|d IH|d IH|d IH|d IH];
    cbn [NilEmpty.string_of_uint has_char]; [reflexivity|..];
    rewrite IH; rewrite Ascii.eqb_sym; apply orb_false_iff; now split.
Qed.

Lemma int_text_chars (c : ascii) (n : Z) :
  decimal_char c = false -> has_char c (format n) = false.
Proof.
  intros Hc.
  assert (Hd : forall d, has_char c (NilEmpty.string_of_uint d) = false)
    by (intros d; now apply uint_text_chars).
  assert (Hminus : Ascii.eqb "-" c = false).
  { unfold decimal_char in Hc. cbn [has_char] in Hc.
    apply orb_false_iff in Hc. destruct Hc as [Hm _].
    now rewrite Ascii.eqb_sym. }
  unfold format, Format_int.
  destruct n as [|p|p]; cbn [Z.to_int NilZero.string_of_int].
  - exact (Hd (Decimal.D0 Decimal.Nil)).
  - unfold NilZero.string_of_uint.
    destruct (Pos.to_uint p) eqn:E; try (rewrite <- E; apply Hd).
    exfalso. now apply (DecimalPos.Unsigned.to_uint_nonnil p).
  - cbn [has_char]. rewrite Hminus. cbn [orb].
    unfold NilZero.string_of_uint.
    destruct (Pos.to_uint p) eqn:E; try (rewrite <- E; apply Hd).
    exfalso. now apply (DecimalPos.Unsigned.to_uint_nonnil p).
Qed.

Lemma format_int_injective (n m : Z) : format n = format m -> n = m.
Proof.
  intros H. apply (f_equal parse_int) in H.
  rewrite !parse_int_format in H. now injection H.
Qed.

(* ================================================================= *)
(** ** Reading the listing back *)

Lemma header_line_injective (n1 n2 : string) :
  header_line n1 = header_line n2 -> n1 = n2.
Proof.
  rewrite !header_line_eq. intros H.
  apply Text.app_inv_head in H. now apply app_inv_tail in H.
Qed.

(** A column record, cut at its last comma and, before that, at the blank
    in front of the identifier. *)
Lemma column_line_cut (col : Column.t) :
  column_line col =
  "- " ++ ((Column.title col ++ " (ID:")
             ++ String " " (format (Column.id col)))
       ++ String "," (" Type: " ++ member_name (Column.type col) ++ ")").
Proof. rewrite column_line_eq, !Text.app_assoc. reflexivity. Qed.

Lemma no_newline_count (s : string) :
  has_newline s = false <-> count_newlines s = 0.
Proof.
  pose proof (Text.has_newline_count s) as H.
  destruct (has_newline s); split; intros E; try reflexivity.
  - discriminate.
  - assert (0 < count_newlines s) by now apply H. lia.
  - destruct (count_newlines s); [reflexivity|].
    assert (true = false) by (symmetry; apply H; lia). discriminate.
Qed.

Lemma plain_column_one_line (col : Column.t) :
  plain_column col = true -> has_newline (column_line col) = false.
Proof.
  unfold plain_column. intros H.
  apply andb_true_iff in H. destruct H as [H Htype].
  apply andb_true_iff in H. destruct H as [H _].
  apply andb_true_iff in H. destruct H as [Hid Htitle].
  apply negb_true_iff in Htype, Htitle.
  rewrite column_line_eq, !Text.has_newline_app, Htitle, Htype.
  destruct (Column.id col) as [n|s]; [|discriminate].
  change (format (IntId n)) with (format n).
  rewrite (has_newline_has_char (format n)), int_text_chars;
    reflexivity.
Qed.

Lemma no_newlines_in_records (cols : list Column.t) :
  list_sum (map count_newlines (map column_line cols)) = 0 <->
  forallb (fun col => negb (has_newline (column_line col))) cols = true.
Proof.
  induction cols as [|col cols IH]; [now split|].
  cbn [map forallb].
  change (list_sum (?x :: ?xs)) with (x + list_sum xs).
  rewrite andb_true_iff, negb_true_iff, no_newline_count, <- IH. lia.
Qed.

(** Cutting a record at its last comma and at the blank before the
    identifier recovers title, identifier text and type name. *)
Lemma record_determines_column (c1 c2 : Column.t) :
  integer_id (Column.id c1) = true ->
  integer_id (Column.id c2) = true ->
  has_char "," (member_name (Column.type c1)) = false ->
  has_char "," (member_name (Column.type c2)) = false ->
  column_line c1 = column_line c2 ->
  c1 = c2.
Proof.
  destruct c1 as [t1 [n1|s1] [m1]]; [|discriminate].
  destruct c2 as [t2 [n2|s2] [m2]]; [|discriminate].
  cbn [Column.id Column.type member_name]. intros _ _ Hm1 Hm2 H.
  rewrite !column_line_cut in H.
  cbn [Column.title Column.id Column.type member_name] in H.
  change (format (IntId n1)) with (format n1) in H.
  change (format (IntId n2)) with (format n2) in H.
  apply Text.app_inv_head in H.
  apply cut_at_last_unique in H.
  - destruct H as [Hleft Hright].
    apply cut_at_last_unique in Hleft;
      [|now apply int_text_chars|now apply int_text_chars].
    destruct Hleft as [Htitle Hid].
    apply app_inv_tail in Htitle.
    apply format_int_injective in Hid.
    apply Text.app_inv_head in Hright. apply app_inv_tail in Hright.
    now subst.
  - rewrite !has_char_app, Hm1. reflexivity.
  - rewrite !has_char_app, Hm2. reflexivity.
Qed.


Lemma plain_columns_one_line (cols : list Column.t) :
  forallb plain_column cols = true ->
  forallb (fun l => negb (has_newline l)) (map column_line cols) = true.
Proof.
  induction cols as [|col cols IH]; [reflexivity|].
  cbn [forallb map]. rewrite !andb_true_iff. intros [Hcol Hcols].
  split; [|now apply IH].
  now rewrite plain_column_one_line.
Qed.

Lemma plain_column_parts (col : Column.t) :
  plain_column col = true ->
  integer_id (Column.id col) = true /\
  has_char "," (member_name (Column.type col)) = false.
Proof.
  unfold plain_column. rewrite !andb_true_iff, !negb_true_iff. tauto.
Qed.

Lemma plain_records_determine_columns (cols1 cols2 : list Column.t) :
  forallb plain_column cols1 = true ->
  forallb plain_column cols2 = true ->
  map column_line cols1 = map column_line cols2 ->
  cols1 = cols2.
Proof.
  revert cols2.
  induction cols1 as [|c1 cols1 IH]; intros [|c2 cols2];
    cbn [forallb map]; try discriminate; [reflexivity|].
  rewrite !andb_true_iff. intros [Hc1 Hcols1] [Hc2 Hcols2] H.
  pose proof (f_equal (hd EmptyString) H) as Hline.
  pose proof (f_equal (@tl string) H) as Hrest.
  cbn [hd tl] in Hline, Hrest.
  destruct (plain_column_parts c1 Hc1) as [Hid1 Hty1].
  destruct (plain_column_parts c2 Hc2) as [Hid2 Hty2].
  rewrite (record_determines_column c1 c2 Hid1 Hid2 Hty1 Hty2 Hline).
  now rewrite (IH cols2 Hcols1 Hcols2 Hrest).
Qed.

(* ================================================================= *)
(** ** Further properties of the script *)



(** X2: on a successful run the output has exactly one physical line for
    the header and one per column if and only if neither the sheet's name
    nor any column record contains a line terminator. *)
Theorem X2_line_count_exact_iff_no_terminator
    (token : string) (sheet_id : Z) (svc : Service)
    (fs : list (string * string)) (sheet : Sheet.t) :
  svc token sheet_id = inl sheet ->
  let out := stdout (final (run token sheet_id svc fs)) in
  List.length (splitlines out) = 1 + List.length (Sheet.columns sheet) <->
  has_newline (Sheet.name sheet) = false /\
  forallb (fun col => negb (has_newline (column_line col)))
          (Sheet.columns sheet) = true.
Proof.
  intros Hsvc out. subst out.
  rewrite (run_fetched token sheet_id svc fs sheet Hsvc).
  cbn [final stdout]. rewrite Text.length_splitlines_unlines.
  cbn [List.length map].
  change (list_sum (?x :: ?xs)) with (x + list_sum xs).
  rewrite length_map, count_newlines_header.
  rewrite no_newline_count, <- no_newlines_in_records. lia.
Qed.

Lemma X2_witness :
  sample_service "s3cret" 4001%Z = inl project_plan /\
  List.length
    (splitlines (stdout (final (run "s3cret" 4001%Z sample_service []))))
  = 3.
Proof.
  split; [reflexivity|].
  apply (proj2 (X2_line_count_exact_iff_no_terminator
                  "s3cret" 4001%Z sample_service [] project_plan eq_refl)).
  split; reflexivity.
Defined.

(** X3: among columns with integer identifiers and type names without a
    comma, the record determines the column: two such columns with the same
    record have the same title, identifier and type, whatever the titles
    contain. *)
Theorem X3_integer_id_records_determine_column (c1 c2 : Column.t) :
  integer_id (Column.id c1) = true ->
  integer_id (Column.id c2) = true ->
  has_char "," (member_name (Column.type c1)) = false ->
  has_char "," (member_name (Column.type c2)) = false ->
  column_line c1 = column_line c2 ->
  c1 = c2.
Proof. apply record_determines_column. Qed.

Lemma X3_witness :
  integer_id (Column.id awkward_column) = true /\
  has_char "," (member_name (Column.type awkward_column)) = false /\
  column_line awkward_column = "- Cost (ID: 7 (ID: 333, Type: PICKLIST)" /\
  awkward_column = awkward_column.
Proof.
  split; [reflexivity|]. split; [reflexivity|]. split; [reflexivity|].
  exact (X3_integer_id_records_determine_column
           awkward_column awkward_column
           eq_refl eq_refl eq_refl eq_refl eq_refl).
Defined.

(** X4: the listing of a plain sheet loses nothing.  When two successful
    runs print the same text and both fetched sheets are plain (one-line
    name and titles, integer identifiers, one-line type names without a
    comma), the two sheets have the same name and the same columns in the
    same order. *)
Theorem X4_plain_listing_determines_sheet
    (token1 token2 : string) (sheet_id1 sheet_id2 : Z)
    (svc1 svc2 : Service) (fs1 fs2 : list (string * string))
    (sheet1 sheet2 : Sheet.t) :
  svc1 token1 sheet_id1 = inl sheet1 ->
  svc2 token2 sheet_id2 = inl sheet2 ->
  plain_sheet sheet1 = true ->
  plain_sheet sheet2 = true ->
  stdout (final (run token1 sheet_id1 svc1 fs1)) =
  stdout (final (run token2 sheet_id2 svc2 fs2)) ->
  Sheet.name sheet1 = Sheet.name sheet2 /\
  Sheet.columns sheet1 = Sheet.columns sheet2.
Proof.
  intros H1 H2 Hplain1 Hplain2.
  rewrite (run_fetched token1 sheet_id1 svc1 fs1 sheet1 H1).
  rewrite (run_fetched token2 sheet_id2 svc2 fs2 sheet2 H2).
  cbn [final stdout]. intros Hout.
  unfold plain_sheet in Hplain1, Hplain2.
  apply andb_true_iff in Hplain1, Hplain2.
  destruct Hplain1 as [Hname1 Hcols1], Hplain2 as [Hname2 Hcols2].
  apply (f_equal splitlines) in Hout.
  rewrite !Text.splitlines_unlines in Hout.
  - pose proof (f_equal (hd EmptyString) Hout) as Hheader.
    pose proof (f_equal (@tl string) Hout) as Hlines.
    cbn [hd tl] in Hheader, Hlines. split.
    + now apply header_line_injective.
    + now apply plain_records_determine_columns.
  - cbn [forallb]. apply andb_true_iff. split.
    + apply negb_true_iff, no_newline_count.
      rewrite count_newlines_header. apply no_newline_count.
      now apply negb_true_iff.
    + now apply plain_columns_one_line.
  - cbn [forallb]. apply andb_true_iff. split.
    + apply negb_true_iff, no_newline_count.
      rewrite count_newlines_header. apply no_newline_count.
      now apply negb_true_iff.
    + now apply plain_columns_one_line.
Qed.

Lemma X4_witness :
  sample_service "s3cret" 4001%Z = inl project_plan /\
  mirror_service "0ther" 9%Z =
    inl (Sheet.mk 9 (Sheet.name project_plan)
                    (Sheet.columns project_plan)) /\
  plain_sheet project_plan = true /\
  stdout (final (run "s3cret" 4001%Z sample_service [])) =
  stdout (final (run "0ther" 9%Z mirror_service [])) /\
  Sheet.columns project_plan =
  Sheet.columns (Sheet.mk 9 (Sheet.name project_plan)
                            (Sheet.columns project_plan)).
Proof.
  split; [reflexivity|]. split; [reflexivity|]. split; [reflexivity|].
  split; [reflexivity|].
  exact (proj2 (X4_plain_listing_determines_sheet
                  "s3cret" "0ther" 4001%Z 9%Z sample_service mirror_service
                  [] [] project_plan
                  (Sheet.mk 9 (Sheet.name project_plan)
                              (Sheet.columns project_plan))
                  eq_refl eq_refl eq_refl eq_refl eq_refl)).
Defined.

(** X5: on any output encoding, the exit status is zero exactly when a
    sheet was fetched and standard output holds its complete listing: a
    failed fetch and a listing cut short by a failing [print] both end with
    a non-zero status. *)
Theorem X5_exit_zero_iff_complete_listing
    (enc : string -> bool) (token : string) (sheet_id : Z) (svc : Service)
    (fs : list (string * string)) :
  let outcome := run_on enc token sheet_id svc fs in
  exit_status outcome = 0%Z <->
  exists sheet,
    svc token sheet_id = inl sheet /\
    stdout (final outcome) =
      unlines (header_line (Sheet.name sheet)
               :: map column_line (Sheet.columns sheet)).
Proof.
  intros outcome. subst outcome.
  destruct (svc token sheet_id) as [sheet|failure] eqn:Hsvc.
  - rewrite (run_on_fetched token sheet_id svc fs enc sheet Hsvc).
    cbn [final stdout exit_status].
    set (records := header_line (Sheet.name sheet)
                    :: map column_line (Sheet.columns sheet)).
    destruct (forallb enc records) eqn:Hall.
    + rewrite (take_while_all enc records Hall),
              (find_rejected_none enc records Hall).
      split; [intros _; now exists sheet | reflexivity].
    + destruct (find_rejected_some enc records Hall)
        as [record [rest [Hfind [_ Hsplit]]]].
      rewrite Hfind. split; [discriminate|].
      intros [sheet' [Hsheet Hout]]. exfalso.
      injection Hsheet as <-. fold records in Hout.
      rewrite Hsplit in Hout at 2. rewrite Text.unlines_app in Hout.
      revert Hout. apply app_longer.
      cbn [unlines]. destruct record; discriminate.
  - rewrite (run_on_failed token sheet_id svc fs enc failure Hsvc).
    cbn [final stdout exit_status].
    split; [discriminate | intros [sheet [Hsheet _]]; discriminate].
Qed.


